(** * Hotel cost calculator for the Paradores of El Hierro and La Palma

    A shallow embedding of [elhierro_lapalma.py] and the properties of its
    room allocator and cost aggregator.

    Number model.  Python's unbounded [int] is [Z]; [//] by a positive
    constant is [Z.div] (both round towards minus infinity) and [min] is
    [Z.min].  The fields annotated [float] (rates, coffee-break and
    meeting-room costs) and the results of true division [/] are exact
    rationals [Q]: every value of the catalogue is an integer, sums and
    products of integers are exact in Python, and only the quotients by the
    group size are rounded by the interpreter.  Equalities between such
    quotients are therefore stated with [==] on [Q].  The keys by which the
    shared phase sorts are halves of rates: the interpreter's half of a
    whole number below 2^53 is exact, so there the order of the keys is the
    order of the rates. *)

From Stdlib Require Import ZArith QArith Qabs String List DecimalString Lia Lqa.
From stdpp Require Import gmap strings.

Open Scope string_scope.
Open Scope Z_scope.

(** ** Module globals *)

Definition NIGHTS : Z := 5.
Definition MEALS_PER_DAY : Z := 3.
Definition MEAL_COST_PER_PERSON : Z := 38.
Definition MEETING_ROOM_DAYS : Z := 4.

(** ** Exceptions and results *)

Inductive exception : Type :=
| ValueError (msg : string)
| ZeroDivisionError
| OverflowError.

Inductive result (A : Type) : Type :=
| Ok (a : A)
| Raise (e : exception).
Arguments Ok {A} a.
Arguments Raise {A} e.

(** Sequencing: an exception of the first computation skips the rest.
    The instance gives results the notation [x ← r; k]. *)
#[global] Instance result_bind : MBind result := fun A B k r =>
  match r with
  | Ok a => k a
  | Raise e => Raise e
  end.

(** [str(n)] of an integer, as an f-string field prints it. *)
Definition str_int (n : Z) : string := NilZero.string_of_int (Z.to_int n).

(** True division [a / b]: raises on a zero divisor. *)
Definition truediv (a b : Q) : result Q :=
  if Qeq_bool b 0 then Raise ZeroDivisionError else Ok (a / b)%Q.

(** ** Data model *)

Record RoomRate : Type := {
  shared_rate : Q;
  single_rate : Q
}.

Record RoomInventory : Type := {
  standard_count : Z;
  superior_count : Z
}.

Record HotelRates : Type := {
  standard : RoomRate;
  superior : RoomRate
}.

Record RoomAllocation : Type := {
  standard_shared : Z;
  standard_single : Z;
  superior_shared : Z;
  superior_single : Z
}.

(** [RoomAllocation()]: every field takes its default. *)
Definition RoomAllocation_default : RoomAllocation :=
  {| standard_shared := 0; standard_single := 0;
     superior_shared := 0; superior_single := 0 |}.

(** Attribute assignments [allocation.f = v]. *)
Definition set_standard_shared (a : RoomAllocation) (v : Z) : RoomAllocation :=
  {| standard_shared := v; standard_single := standard_single a;
     superior_shared := superior_shared a; superior_single := superior_single a |}.
Definition set_standard_single (a : RoomAllocation) (v : Z) : RoomAllocation :=
  {| standard_shared := standard_shared a; standard_single := v;
     superior_shared := superior_shared a; superior_single := superior_single a |}.
Definition set_superior_shared (a : RoomAllocation) (v : Z) : RoomAllocation :=
  {| standard_shared := standard_shared a; standard_single := standard_single a;
     superior_shared := v; superior_single := superior_single a |}.
Definition set_superior_single (a : RoomAllocation) (v : Z) : RoomAllocation :=
  {| standard_shared := standard_shared a; standard_single := standard_single a;
     superior_shared := superior_shared a; superior_single := v |}.

Definition get_total_cost (self : RoomAllocation) (rates : HotelRates) : Q :=
  let daily_cost :=
    (inject_Z (standard_shared self) * shared_rate (standard rates) +
     inject_Z (standard_single self) * single_rate (standard rates) +
     inject_Z (superior_shared self) * shared_rate (superior rates) +
     inject_Z (superior_single self) * single_rate (superior rates))%Q in
  (daily_cost * inject_Z NIGHTS)%Q.

Definition get_total_rooms_used (self : RoomAllocation) : Z :=
  standard_shared self + standard_single self +
  superior_shared self + superior_single self.

Record HotelConfig : Type := {
  name : string;
  inventory : RoomInventory;
  rates : HotelRates;
  coffee_break_cost : Q;
  meeting_room_cost : Q
}.

Definition get_max_capacity (self : HotelConfig) : Z :=
  standard_count (inventory self) * 2 + superior_count (inventory self) * 2.

(** ** [list.sort()] on the [(cost, room_type)] tuples

    Tuples compare lexicographically, [sort] is stable and only asks [<]. *)

Definition tuple_lt (x y : Q * string) : bool :=
  if Qeq_bool (fst x) (fst y) then String.ltb (snd x) (snd y)
  else negb (Qle_bool (fst y) (fst x)).

Fixpoint insert_sorted (x : Q * string) (l : list (Q * string)) : list (Q * string) :=
  match l with
  | [] => [x]
  | y :: l' => if tuple_lt x y then x :: y :: l' else y :: insert_sorted x l'
  end.

Definition sort (l : list (Q * string)) : list (Q * string) :=
  fold_left (fun acc x => insert_sorted x acc) l [].

(** ** HotelAllocator

    The allocator object is threaded through its methods, so that what a call
    leaves behind in [self] is part of the model. *)

Record HotelAllocator : Type := {
  config : HotelConfig
}.

(** The [for] loop of [_allocate_shared_rooms]; leaving the recursion is
    [break]. *)
Fixpoint _allocate_shared_rooms_for (self : HotelAllocator)
    (room_costs : list (Q * string)) (allocation : RoomAllocation)
    (people_remaining : Z) : HotelAllocator * RoomAllocation * Z :=
  match room_costs with
  | [] => (self, allocation, people_remaining)
  | (cost_per_person, room_type) :: room_costs' =>
      if people_remaining <=? 0 then (self, allocation, people_remaining)
      else if String.eqb room_type "standard" then
        let rooms_available :=
          standard_count (inventory (config self)) - standard_shared allocation in
        let rooms_to_use := Z.min rooms_available (people_remaining / 2) in
        let allocation := set_standard_shared allocation rooms_to_use in
        let people_remaining := people_remaining - rooms_to_use * 2 in
        _allocate_shared_rooms_for self room_costs' allocation people_remaining
      else
        let rooms_available :=
          superior_count (inventory (config self)) - superior_shared allocation in
        let rooms_to_use := Z.min rooms_available (people_remaining / 2) in
        let allocation := set_superior_shared allocation rooms_to_use in
        let people_remaining := people_remaining - rooms_to_use * 2 in
        _allocate_shared_rooms_for self room_costs' allocation people_remaining
  end.

Definition _allocate_shared_rooms (self : HotelAllocator)
    (allocation : RoomAllocation) (people_remaining : Z)
    : HotelAllocator * RoomAllocation * Z :=
  let room_costs :=
    [ ((shared_rate (standard (rates (config self))) / 2)%Q, "standard");
      ((shared_rate (superior (rates (config self))) / 2)%Q, "superior") ] in
  let room_costs := sort room_costs in
  _allocate_shared_rooms_for self room_costs allocation people_remaining.

(** The [for] loop of [_allocate_single_rooms]. *)
Fixpoint _allocate_single_rooms_for (self : HotelAllocator)
    (room_costs : list (Q * string)) (allocation : RoomAllocation)
    (people_remaining : Z) : HotelAllocator * RoomAllocation * Z :=
  match room_costs with
  | [] => (self, allocation, people_remaining)
  | (cost_per_person, room_type) :: room_costs' =>
      if people_remaining <=? 0 then (self, allocation, people_remaining)
      else if String.eqb room_type "standard" then
        let rooms_available :=
          standard_count (inventory (config self))
          - standard_shared allocation - standard_single allocation in
        let rooms_to_use := Z.min rooms_available people_remaining in
        let allocation := set_standard_single allocation rooms_to_use in
        let people_remaining := people_remaining - rooms_to_use in
        _allocate_single_rooms_for self room_costs' allocation people_remaining
      else
        let rooms_available :=
          superior_count (inventory (config self))
          - superior_shared allocation - superior_single allocation in
        let rooms_to_use := Z.min rooms_available people_remaining in
        let allocation := set_superior_single allocation rooms_to_use in
        let people_remaining := people_remaining - rooms_to_use in
        _allocate_single_rooms_for self room_costs' allocation people_remaining
  end.

Definition _allocate_single_rooms (self : HotelAllocator)
    (allocation : RoomAllocation) (people_remaining : Z)
    : HotelAllocator * RoomAllocation * Z :=
  let room_costs :=
    [ (single_rate (standard (rates (config self))), "standard");
      (single_rate (superior (rates (config self))), "superior") ] in
  let room_costs := sort room_costs in
  _allocate_single_rooms_for self room_costs allocation people_remaining.

Definition capacity_message (num_people max_capacity : Z) : string :=
  ("Group size " ++ str_int num_people
   ++ " exceeds hotel maximum capacity " ++ str_int max_capacity)%string.

Definition allocate_rooms (self : HotelAllocator) (num_people : Z)
    : HotelAllocator * result RoomAllocation :=
  if num_people >? get_max_capacity (config self) then
    (self, Raise (ValueError
       (capacity_message num_people (get_max_capacity (config self)))))
  else
    let allocation := RoomAllocation_default in
    let people_remaining := num_people in
    let '(self, allocation, people_remaining) :=
      _allocate_shared_rooms self allocation people_remaining in
    let '(self, allocation, people_remaining) :=
      _allocate_single_rooms self allocation people_remaining in
    if people_remaining >? 0 then
      (self, Raise (ValueError "Failed to allocate all people to rooms"))
    else
      (self, Ok allocation).

(** ** HotelCostCalculator *)

Record HotelCostCalculator : Type := {
  hotels : gmap string HotelConfig
}.

Definition _initialize_hotels : gmap string HotelConfig :=
  <[ "el_hierro" :=
       {| name := "Parador de El Hierro";
          inventory := {| standard_count := 20; superior_count := 20 |};
          rates := {| standard := {| shared_rate := 158; single_rate := 136 |};
                      superior := {| shared_rate := 181; single_rate := 159 |} |};
          coffee_break_cost := 7;
          meeting_room_cost := 200 |} ]>
  (<[ "la_palma" :=
       {| name := "Parador de La Palma";
          inventory := {| standard_count := 21; superior_count := 24 |};
          rates := {| standard := {| shared_rate := 164; single_rate := 144 |};
                      superior := {| shared_rate := 186; single_rate := 166 |} |};
          coffee_break_cost := 8;
          meeting_room_cost := 800 |} ]> ∅).

(** [HotelCostCalculator()]. *)
Definition HotelCostCalculator_init : HotelCostCalculator :=
  {| hotels := _initialize_hotels |}.

Definition unknown_hotel (hotel_key : string) : exception :=
  ValueError ("Unknown hotel: " ++ hotel_key)%string.

Definition calculate_accommodation_cost (self : HotelCostCalculator)
    (num_people : Z) (hotel_key : string) : result Q :=
  match hotels self !! hotel_key with
  | None => Raise (unknown_hotel hotel_key)
  | Some config =>
      let allocator := Build_HotelAllocator config in
      allocation ← snd (allocate_rooms allocator num_people);
      let total_accommodation_cost := get_total_cost allocation (rates config) in
      truediv total_accommodation_cost (inject_Z num_people)
  end.

Definition calculate_meal_cost (self : HotelCostCalculator) : Z :=
  let total_meals_per_person := 1 + (3 * (NIGHTS - 2)) + 1 in
  total_meals_per_person * MEAL_COST_PER_PERSON.

Definition calculate_coffee_break_cost (self : HotelCostCalculator)
    (hotel_key : string) : result Q :=
  match hotels self !! hotel_key with
  | None => Raise (unknown_hotel hotel_key)
  | Some config =>
      let coffee_breaks_per_person := 2 * (NIGHTS - 2) in
      Ok (inject_Z coffee_breaks_per_person * coffee_break_cost config)%Q
  end.

Definition calculate_meeting_room_cost (self : HotelCostCalculator)
    (num_people : Z) (hotel_key : string) : result Q :=
  match hotels self !! hotel_key with
  | None => Raise (unknown_hotel hotel_key)
  | Some config => truediv (meeting_room_cost config) (inject_Z num_people)
  end.

Definition calculate_total_price_per_person (self : HotelCostCalculator)
    (num_people : Z) (hotel_key : string) : result Q :=
  accommodation_cost ← calculate_accommodation_cost self num_people hotel_key;
  let meal_cost := calculate_meal_cost self in
  coffee_break_cost ← calculate_coffee_break_cost self hotel_key;
  meeting_room_cost ← calculate_meeting_room_cost self num_people hotel_key;
  Ok (accommodation_cost + inject_Z meal_cost + coffee_break_cost
      + meeting_room_cost)%Q.

Definition get_detailed_allocation (self : HotelCostCalculator)
    (num_people : Z) (hotel_key : string)
    : result (RoomAllocation * Q * Z * Q * Q) :=
  match hotels self !! hotel_key with
  | None => Raise (unknown_hotel hotel_key)
  | Some config =>
      let allocator := Build_HotelAllocator config in
      allocation ← snd (allocate_rooms allocator num_people);
      let total_accommodation_cost := get_total_cost allocation (rates config) in
      let total_meal_cost := calculate_meal_cost self * num_people in
      coffee ← calculate_coffee_break_cost self hotel_key;
      let total_coffee_break_cost := (coffee * inject_Z num_people)%Q in
      meeting ← calculate_meeting_room_cost self num_people hotel_key;
      let total_meeting_room_cost := (meeting * inject_Z num_people)%Q in
      Ok (allocation, total_accommodation_cost, total_meal_cost,
          total_coffee_break_cost, total_meeting_room_cost)
  end.

(** ** The rows of [print_comparison]

    A printed line is kept as the values its f-string formats: a priced row,
    or the row of N/A columns that ends with the text of the exception. *)

Inductive report_line : Type :=
| Row (num_people : Z) (accommodation_per_person : Q) (meals_per_person : Z)
      (coffee_per_person meeting_per_person total_per_person total_cost : Q)
| Unavailable (num_people : Z) (e : string).

(** An [int] is converted to a [float] when it meets one in an arithmetic
    operation.  From [2^1024 - 2^970] on, in magnitude, it rounds beyond the
    largest binary64 and the conversion raises [OverflowError]. *)
Definition float_limit : Z := 2 ^ 1024 - 2 ^ 970.

Definition int_fits_float (n : Z) : bool := Z.abs n <? float_limit.

(** [x * n] for a float [x] and an int [n]. *)
Definition float_times_int (x : Q) (n : Z) : result Q :=
  if int_fits_float n then Ok (x * inject_Z n)%Q else Raise OverflowError.

(** The body of the loop over the group sizes: [try] the four costs and
    print the row, [except ValueError as e] print the N/A row.  Any other
    exception leaves the loop.  [total_per_person] is a float, being a sum
    that starts with the quotient [accommodation_per_person], and
    [num_people] is an int. *)
Definition print_comparison_row (self : HotelCostCalculator)
    (hotel_key : string) (num_people : Z) : result report_line :=
  let attempt :=
    accommodation_per_person ← calculate_accommodation_cost self num_people hotel_key;
    let meals_per_person := calculate_meal_cost self in
    coffee_per_person ← calculate_coffee_break_cost self hotel_key;
    meeting_per_person ← calculate_meeting_room_cost self num_people hotel_key;
    let total_per_person :=
      (accommodation_per_person + inject_Z meals_per_person
       + coffee_per_person + meeting_per_person)%Q in
    total_cost ← float_times_int total_per_person num_people;
    Ok (Row num_people accommodation_per_person meals_per_person
            coffee_per_person meeting_per_person total_per_person total_cost) in
  match attempt with
  | Raise (ValueError e) => Ok (Unavailable num_people e)
  | other => other
  end.

(** [for num_people in group_sizes], for one hotel: the lines printed so
    far, and the exception that ended the loop if one did. *)
Fixpoint print_comparison_rows (self : HotelCostCalculator)
    (hotel_key : string) (group_sizes : list Z) (printed : list report_line)
    : list report_line * option exception :=
  match group_sizes with
  | [] => (printed, None)
  | num_people :: group_sizes' =>
      match print_comparison_row self hotel_key num_people with
      | Ok line => print_comparison_rows self hotel_key group_sizes' (printed ++ [line])%list
      | Raise e => (printed, Some e)
      end
  end.

(** ** The stay length as the module global it is

    [NIGHTS] is read from the module at each call; no function takes it as an
    argument.  The section repeats the body of [calculate_meal_cost], which
    is integer arithmetic throughout, with the global as the section
    variable [nights], to say what it computes whatever the module binds
    the global to. *)

Section NightsGlobal.
Variable nights : Z.

Definition calculate_meal_cost_at (self : HotelCostCalculator) : Z :=
  let total_meals_per_person := 1 + (3 * (nights - 2)) + 1 in
  total_meals_per_person * MEAL_COST_PER_PERSON.
End NightsGlobal.

(** ** Allocations a hotel can hold *)

Definition people_housed (a : RoomAllocation) : Z :=
  standard_shared a * 2 + standard_single a
  + superior_shared a * 2 + superior_single a.

Definition within_inventory (c : HotelConfig) (a : RoomAllocation) : Prop :=
  standard_shared a + standard_single a <= standard_count (inventory c)
  /\ superior_shared a + superior_single a <= superior_count (inventory c).

Definition non_negative (a : RoomAllocation) : Prop :=
  0 <= standard_shared a /\ 0 <= standard_single a
  /\ 0 <= superior_shared a /\ 0 <= superior_single a.

(** The data model gives an inventory non-negative room counts. *)
Definition inventory_wf (c : HotelConfig) : Prop :=
  0 <= standard_count (inventory c) /\ 0 <= superior_count (inventory c).

Definition alloc (a b c d : Z) : RoomAllocation :=
  {| standard_shared := a; standard_single := b;
     superior_shared := c; superior_single := d |}.

(** What a line says about the group size it was printed for. *)
Definition line_for (c : HotelConfig) (N : Z) (l : report_line) : Prop :=
  match l with
  | Row n _ _ _ _ total_per_person total_cost =>
      n = N /\ N <= get_max_capacity c
      /\ (total_cost == total_per_person * inject_Z N)%Q
  | Unavailable n e =>
      n = N /\ get_max_capacity c < N
      /\ e = capacity_message N (get_max_capacity c)
  end.

(** * Properties *)

(** ** The sort of two tuples *)

Lemma sort_two (c1 c2 : Q) :
  sort [(c1, "standard"); (c2, "superior")] =
    if tuple_lt (c2, "superior") (c1, "standard")
    then [(c2, "superior"); (c1, "standard")]
    else [(c1, "standard"); (c2, "superior")].
Proof. reflexivity. Qed.

(** With equal costs the source order stays: standard before superior. *)
Lemma sort_two_tie (c1 c2 : Q) :
  (c1 == c2)%Q ->
  sort [(c1, "standard"); (c2, "superior")] = [(c1, "standard"); (c2, "superior")].
Proof.
  intros H. rewrite sort_two. unfold tuple_lt. cbn [fst snd].
  assert (E : Qeq_bool c2 c1 = true) by (apply Qeq_bool_iff; symmetry; exact H).
  rewrite E. reflexivity.
Qed.

(** ** The two phases on a hotel with a non-negative inventory *)

Ltac split_ifs :=
  repeat match goal with
  | |- context [if ?b <=? ?c then _ else _] => destruct (Z.leb_spec b c)
  | |- context [if ?b >? ?c then _ else _] =>
      rewrite (Z.gtb_ltb b c); destruct (Z.ltb_spec c b)
  end.

Ltac alloc_fields :=
  unfold set_standard_shared, set_standard_single, set_superior_shared,
    set_superior_single, RoomAllocation_default in *;
  cbn [standard_shared standard_single superior_shared superior_single] in *.

Section Phases.
Variable self : HotelAllocator.
Hypothesis Hwf : inventory_wf (config self).

Let S := standard_count (inventory (config self)).
Let P := superior_count (inventory (config self)).

(** What the shared phase leaves, whichever category it visits first. *)
Definition shared_post (n : Z) (r : HotelAllocator * RoomAllocation * Z) : Prop :=
  let '(self', a, pr) := r in
  self' = self
  /\ standard_single a = 0 /\ superior_single a = 0
  /\ 0 <= standard_shared a <= S /\ 0 <= superior_shared a <= P
  /\ standard_shared a * 2 + superior_shared a * 2 + pr = n
  /\ 0 <= pr
  /\ (pr = n mod 2 \/ (standard_shared a = S /\ superior_shared a = P)).

Lemma shared_for_post (n : Z) (l : list (Q * string)) (c1 c2 : Q) :
  0 <= n ->
  l = [(c1, "standard"); (c2, "superior")]
  \/ l = [(c2, "superior"); (c1, "standard")] ->
  shared_post n (_allocate_shared_rooms_for self l RoomAllocation_default n).
Proof.
  destruct Hwf as [HS HP]. fold S in HS. fold P in HP.
  intros Hn [-> | ->]; unfold shared_post;
    cbn [_allocate_shared_rooms_for String.eqb Ascii.eqb Bool.eqb];
    fold S; fold P; split_ifs; alloc_fields; repeat split;
    Z.div_mod_to_equations; lia.
Qed.

Lemma shared_rooms_post (n : Z) :
  0 <= n ->
  shared_post n (_allocate_shared_rooms self RoomAllocation_default n).
Proof.
  intros Hn. unfold _allocate_shared_rooms. rewrite sort_two.
  destruct (tuple_lt _ _); eapply shared_for_post; auto.
Qed.

(** What the single phase leaves when it starts from the allocation [a0]
    with [n] people to seat. *)
Definition single_post (a0 : RoomAllocation) (n : Z)
    (r : HotelAllocator * RoomAllocation * Z) : Prop :=
  let '(self', a, pr) := r in
  self' = self
  /\ standard_shared a = standard_shared a0
  /\ superior_shared a = superior_shared a0
  /\ 0 <= standard_single a /\ 0 <= superior_single a
  /\ standard_shared a + standard_single a <= S
  /\ superior_shared a + superior_single a <= P
  /\ standard_single a + superior_single a + pr = n
  /\ 0 <= pr
  /\ (pr = 0 \/ (standard_shared a + standard_single a = S
                /\ superior_shared a + superior_single a = P)).

Lemma single_for_post (a0 : RoomAllocation) (n : Z) (l : list (Q * string))
    (c1 c2 : Q) :
  0 <= n ->
  standard_single a0 = 0 -> superior_single a0 = 0 ->
  standard_shared a0 <= S -> superior_shared a0 <= P ->
  l = [(c1, "standard"); (c2, "superior")]
  \/ l = [(c2, "superior"); (c1, "standard")] ->
  single_post a0 n (_allocate_single_rooms_for self l a0 n).
Proof.
  intros Hn H1 H2 H3 H4 [-> | ->]; unfold single_post;
    cbn [_allocate_single_rooms_for String.eqb Ascii.eqb Bool.eqb];
    fold S; fold P; split_ifs; alloc_fields; repeat split; lia.
Qed.

Lemma single_rooms_post (a0 : RoomAllocation) (n : Z) :
  0 <= n ->
  standard_single a0 = 0 -> superior_single a0 = 0 ->
  standard_shared a0 <= S -> superior_shared a0 <= P ->
  single_post a0 n (_allocate_single_rooms self a0 n).
Proof.
  intros. unfold _allocate_single_rooms. rewrite sort_two.
  destruct (tuple_lt _ _); eapply single_for_post; auto.
Qed.

(** Both phases together, for a group the hotel can hold: the call
    returns, leaves the allocator as it was, and the allocation seats
    everybody within the inventory, with one single room for an odd
    group and none for an even one. *)
Lemma allocate_rooms_post (n : Z) :
  0 <= n <= get_max_capacity (config self) ->
  exists a,
    allocate_rooms self n = (self, Ok a)
    /\ non_negative a
    /\ within_inventory (config self) a
    /\ people_housed a = n
    /\ standard_single a + superior_single a = n mod 2.
Proof.
  intros [Hn Hcap]. unfold allocate_rooms.
  rewrite Z.gtb_ltb. destruct (Z.ltb_spec (get_max_capacity (config self)) n); [lia|].
  pose proof (shared_rooms_post n Hn) as Hsh.
  destruct (_allocate_shared_rooms self RoomAllocation_default n)
    as [[self1 a1] pr1].
  destruct Hsh as (-> & Hs1 & Hs2 & Hs3 & Hs4 & Hs5 & Hs6 & Hs7).
  pose proof (single_rooms_post a1 pr1 Hs6 Hs1 Hs2 (proj2 Hs3) (proj2 Hs4)) as Hsi.
  destruct (_allocate_single_rooms self a1 pr1) as [[self2 a2] pr2].
  destruct Hsi as (-> & Hi1 & Hi2 & Hi3 & Hi4 & Hi5 & Hi6 & Hi7 & Hi8 & Hi9).
  unfold get_max_capacity in Hcap. fold S in Hcap. fold P in Hcap.
  pose proof (Z.mod_pos_bound n 2 ltac:(lia)) as Hmb.
  pose proof (Z.div_mod n 2 ltac:(lia)) as Hdm.
  assert (Hpr2 : pr2 = 0) by lia.
  subst pr2. cbn [Z.gtb Z.compare].
  exists a2. unfold non_negative, within_inventory, people_housed.
  fold S. fold P. repeat split; lia.
Qed.
End Phases.

(** ** The catalogue *)

Definition el_hierro : HotelConfig :=
  {| name := "Parador de El Hierro";
     inventory := {| standard_count := 20; superior_count := 20 |};
     rates := {| standard := {| shared_rate := 158; single_rate := 136 |};
                 superior := {| shared_rate := 181; single_rate := 159 |} |};
     coffee_break_cost := 7;
     meeting_room_cost := 200 |}.

Definition la_palma : HotelConfig :=
  {| name := "Parador de La Palma";
     inventory := {| standard_count := 21; superior_count := 24 |};
     rates := {| standard := {| shared_rate := 164; single_rate := 144 |};
                 superior := {| shared_rate := 186; single_rate := 166 |} |};
     coffee_break_cost := 8;
     meeting_room_cost := 800 |}.

Lemma hotels_el_hierro : _initialize_hotels !! "el_hierro" = Some el_hierro.
Proof. reflexivity. Qed.

Lemma hotels_la_palma : _initialize_hotels !! "la_palma" = Some la_palma.
Proof. reflexivity. Qed.

Lemma hotels_inv (hotel_key : string) (c : HotelConfig) :
  _initialize_hotels !! hotel_key = Some c ->
  (hotel_key = "el_hierro" /\ c = el_hierro)
  \/ (hotel_key = "la_palma" /\ c = la_palma).
Proof.
  unfold _initialize_hotels. intros H.
  apply lookup_insert_Some in H as [[<- <-] | [_ H]]; [left; split; reflexivity|].
  apply lookup_insert_Some in H as [[<- <-] | [_ H]]; [right; split; reflexivity|].
  rewrite lookup_empty in H. discriminate.
Qed.

Lemma hotels_wf (hotel_key : string) (c : HotelConfig) :
  _initialize_hotels !! hotel_key = Some c -> inventory_wf c.
Proof.
  intros H. destruct (hotels_inv _ _ H) as [[_ ->] | [_ ->]];
    unfold inventory_wf; cbn; lia.
Qed.

(** ** Exhaustive comparison with every allocation a hotel can hold *)

(** The integers [0 .. n]. *)
Definition upto (n : Z) : list Z :=
  map Z.of_nat (seq 0 (Datatypes.S (Z.to_nat n))).

Lemma upto_In (n x : Z) : 0 <= x <= n -> In x (upto n).
Proof.
  intros H. unfold upto. apply in_map_iff. exists (Z.to_nat x). split; [lia|].
  apply in_seq. lia.
Qed.

Lemma forallb_upto (f : Z -> bool) (n x : Z) :
  forallb f (upto n) = true -> 0 <= x <= n -> f x = true.
Proof.
  intros H Hx. rewrite forallb_forall in H. apply H, upto_In, Hx.
Qed.

(** The allocator's answer for the head count of [a'] costs no more than
    [a'] itself. *)
Definition not_beaten_by (c : HotelConfig) (a' : RoomAllocation) : bool :=
  match snd (allocate_rooms (Build_HotelAllocator c) (people_housed a')) with
  | Ok a => Qle_bool (get_total_cost a (rates c)) (get_total_cost a' (rates c))
  | Raise _ => false
  end.

Definition never_beaten (c : HotelConfig) : bool :=
  let S := standard_count (inventory c) in
  let P := superior_count (inventory c) in
  forallb (fun x1 => forallb (fun x2 =>
    forallb (fun x3 => forallb (fun x4 =>
      not_beaten_by c (alloc x1 x2 x3 x4))
    (upto (P - x3))) (upto P))
  (upto (S - x1))) (upto S).

Lemma never_beaten_sound (c : HotelConfig) (a' : RoomAllocation) :
  never_beaten c = true ->
  non_negative a' -> within_inventory c a' ->
  not_beaten_by c a' = true.
Proof.
  unfold never_beaten, non_negative, within_inventory.
  intros H (H1 & H2 & H3 & H4) (H5 & H6).
  destruct a' as [x1 x2 x3 x4]; cbn [standard_shared standard_single
    superior_shared superior_single] in *.
  apply (forallb_upto _ _ x1) in H; [|lia].
  apply (forallb_upto _ _ x2) in H; [|lia].
  apply (forallb_upto _ _ x3) in H; [|lia].
  apply (forallb_upto _ _ x4) in H; [|lia].
  exact H.
Qed.

Lemma never_beaten_el_hierro : never_beaten el_hierro = true.
Proof. vm_compute. reflexivity. Qed.

Lemma never_beaten_la_palma : never_beaten la_palma = true.
Proof. vm_compute. reflexivity. Qed.

(** ** True division by a group of at least one *)

Lemma truediv_pos (a : Q) (n : Z) :
  1 <= n -> truediv a (inject_Z n) = Ok (a / inject_Z n)%Q.
Proof.
  intros Hn. unfold truediv.
  destruct (Qeq_bool (inject_Z n) 0) eqn:E; [|reflexivity].
  apply Qeq_bool_iff in E. unfold Qeq, inject_Z in E. cbn in E. lia.
Qed.

Lemma truediv_zero (a : Q) : truediv a (inject_Z 0) = Raise ZeroDivisionError.
Proof. reflexivity. Qed.

(** * The claims *)

(** C1.  For each hotel of the catalogue and each group size [N] from 1 to
    the hotel's maximum capacity, [allocate_rooms] returns an allocation of
    non-negative room counts that respects the inventory and houses exactly
    [N] people, and no other such allocation has a smaller
    [get_total_cost]. *)
Theorem C1_allocation_is_cheapest (hotel_key : string) (c : HotelConfig) (N : Z) :
  _initialize_hotels !! hotel_key = Some c ->
  1 <= N <= get_max_capacity c ->
  exists a,
    snd (allocate_rooms (Build_HotelAllocator c) N) = Ok a
    /\ non_negative a /\ within_inventory c a /\ people_housed a = N
    /\ forall a',
         non_negative a' -> within_inventory c a' -> people_housed a' = N ->
         (get_total_cost a (rates c) <= get_total_cost a' (rates c))%Q.
Proof.
  intros Hc HN.
  destruct (allocate_rooms_post (Build_HotelAllocator c) (hotels_wf _ _ Hc) N
              ltac:(cbn [config]; lia)) as (a & Ha & Hnn & Hinv & Hpeople & _).
  exists a. rewrite Ha. cbn [snd config] in *.
  split; [reflexivity|]. do 3 (split; [assumption|]).
  intros a' Hnn' Hinv' Hpeople'.
  assert (Hcheck : never_beaten c = true).
  { destruct (hotels_inv _ _ Hc) as [[_ ->] | [_ ->]];
      [apply never_beaten_el_hierro | apply never_beaten_la_palma]. }
  pose proof (never_beaten_sound c a' Hcheck Hnn' Hinv') as Hle.
  unfold not_beaten_by in Hle. rewrite Hpeople', Ha in Hle. cbn [snd] in Hle.
  apply Qle_bool_iff. exact Hle.
Qed.

Lemma C1_witness :
  exists a,
    snd (allocate_rooms (Build_HotelAllocator el_hierro) 41) = Ok a
    /\ non_negative a /\ within_inventory el_hierro a /\ people_housed a = 41
    /\ forall a',
         non_negative a' -> within_inventory el_hierro a' ->
         people_housed a' = 41 ->
         (get_total_cost a (rates el_hierro)
          <= get_total_cost a' (rates el_hierro))%Q.
Proof.
  apply (C1_allocation_is_cheapest "el_hierro" el_hierro 41).
  - reflexivity.
  - vm_compute. split; discriminate.
Defined.

(** C2.  On a hotel with a non-negative inventory, for each group size [N]
    from 1 to the maximum capacity, [allocate_rooms] returns an allocation
    (neither [raise] is reached) with
    [standard_shared + standard_single <= standard_count],
    [superior_shared + superior_single <= superior_count] and
    [standard_shared*2 + standard_single + superior_shared*2 + superior_single = N]. *)
Theorem C2_allocation_within_inventory (self : HotelAllocator) (N : Z) :
  inventory_wf (config self) ->
  1 <= N <= get_max_capacity (config self) ->
  exists a,
    snd (allocate_rooms self N) = Ok a
    /\ standard_shared a + standard_single a
       <= standard_count (inventory (config self))
    /\ superior_shared a + superior_single a
       <= superior_count (inventory (config self))
    /\ standard_shared a * 2 + standard_single a
       + superior_shared a * 2 + superior_single a = N.
Proof.
  intros Hwf HN.
  destruct (allocate_rooms_post self Hwf N ltac:(lia))
    as (a & Ha & _ & [Hstd Hsup] & Hpeople & _).
  exists a. rewrite Ha. auto.
Qed.

Lemma C2_witness :
  exists a,
    snd (allocate_rooms (Build_HotelAllocator la_palma) 89) = Ok a
    /\ standard_shared a + standard_single a <= 21
    /\ superior_shared a + superior_single a <= 24
    /\ standard_shared a * 2 + standard_single a
       + superior_shared a * 2 + superior_single a = 89.
Proof.
  apply (C2_allocation_within_inventory (Build_HotelAllocator la_palma) 89).
  - unfold inventory_wf. cbn. lia.
  - vm_compute. split; discriminate.
Defined.

(** C3, as the spec words it, fails: for 45 people at El Hierro the answer
    is not 20 standard shared rooms and 5 superior singles. *)
Lemma C3_counterexample :
  snd (allocate_rooms (Build_HotelAllocator el_hierro) 45) <> Ok (alloc 20 0 0 5).
Proof. vm_compute. discriminate. Qed.

(** C3, amended.  For 45 people at El Hierro the shared phase fills the 20
    standard rooms and goes on to 2 superior shared rooms, leaving one
    person; the single phase finds no standard room left and puts that
    person in a superior single.  The allocation houses 45 people. *)
Theorem C3_el_hierro_45 :
  _allocate_shared_rooms (Build_HotelAllocator el_hierro) RoomAllocation_default 45
    = (Build_HotelAllocator el_hierro, alloc 20 0 2 0, 1)
  /\ allocate_rooms (Build_HotelAllocator el_hierro) 45
    = (Build_HotelAllocator el_hierro, Ok (alloc 20 0 2 1))
  /\ people_housed (alloc 20 0 2 1) = 45.
Proof. repeat split. Qed.

(** C4.  For each group size [N] above the maximum capacity,
    [allocate_rooms] raises the [ValueError] of its opening guard, whose
    message prints both [N] and the maximum capacity; no allocation is
    made or returned and the allocator is left as it was. *)
Theorem C4_capacity_exceeded (self : HotelAllocator) (N : Z) :
  get_max_capacity (config self) < N ->
  allocate_rooms self N =
    (self, Raise (ValueError
       ("Group size " ++ str_int N ++ " exceeds hotel maximum capacity "
        ++ str_int (get_max_capacity (config self)))%string)).
Proof.
  intros HN. unfold allocate_rooms. rewrite Z.gtb_ltb.
  destruct (Z.ltb_spec (get_max_capacity (config self)) N); [reflexivity | lia].
Qed.

Lemma C4_witness :
  allocate_rooms (Build_HotelAllocator el_hierro) 81 =
    (Build_HotelAllocator el_hierro,
     Raise (ValueError "Group size 81 exceeds hotel maximum capacity 80")).
Proof.
  apply (C4_capacity_exceeded (Build_HotelAllocator el_hierro) 81).
  reflexivity.
Defined.

(** ** The stay length and the meal cost *)

Lemma at_NIGHTS (self : HotelCostCalculator) :
  calculate_meal_cost self = calculate_meal_cost_at NIGHTS self.
Proof. reflexivity. Qed.

(** C5, as the spec words it, fails.  The meal-cost computation with the
    stay length bound to 1 returns minus 38 where the claim wants an
    InvalidDuration error; and the code as it stands has no stay length to
    be given: [calculate_meal_cost] is the integer 418 and
    [calculate_total_price_per_person] takes a group size and a key and
    returns a price. *)
Lemma C5_counterexample :
  calculate_meal_cost_at 1 HotelCostCalculator_init = -38
  /\ calculate_meal_cost HotelCostCalculator_init = 418
  /\ calculate_total_price_per_person HotelCostCalculator_init 30 "el_hierro"
     = Ok (775500 # 900).
Proof. repeat split. Qed.

(** C5, amended.  The stay length is not an argument but the module global
    [NIGHTS = 5], and the meal-cost computation does not check it.  The
    meal cost per person is
    [(2 + 3*(NIGHTS-2)) * MEAL_COST_PER_PERSON = 418], and the body computes
    [(2 + 3*(nights-2)) * MEAL_COST_PER_PERSON] for every integer binding
    [nights] of the global, below 2 as well. *)
Theorem C5_meal_cost_unguarded (self : HotelCostCalculator) :
  NIGHTS = 5
  /\ calculate_meal_cost self = (2 + 3 * (NIGHTS - 2)) * MEAL_COST_PER_PERSON
  /\ calculate_meal_cost self = 418
  /\ (forall nights : Z,
        calculate_meal_cost_at nights self
        = (2 + 3 * (nights - 2)) * MEAL_COST_PER_PERSON).
Proof.
  split; [reflexivity|]. split; [reflexivity|]. split; [reflexivity|].
  intros nights. unfold calculate_meal_cost_at. lia.
Qed.

(** C6, as the spec words it, fails: the total per person for 30 people at
    El Hierro is more than 199 away from 1061.67. *)
Lemma C6_counterexample :
  exists q,
    calculate_total_price_per_person HotelCostCalculator_init 30 "el_hierro" = Ok q
    /\ (199 < Qabs (q - (106167 # 100)))%Q.
Proof. eexists. split; [reflexivity|]. reflexivity. Qed.

(** C6, amended.  For 30 people at El Hierro the allocation is 15 standard
    shared rooms and no other room; the accommodation total is 11850 and
    395 per person; meals are 418 per person, coffee breaks 42, the meeting
    room 200/30; the total per person is 395 + 418 + 42 + 200/30, that is
    2585/3, about 861.67. *)
Theorem C6_el_hierro_30 :
  snd (allocate_rooms (Build_HotelAllocator el_hierro) 30) = Ok (alloc 15 0 0 0)
  /\ (get_total_cost (alloc 15 0 0 0) (rates el_hierro) == 11850)%Q
  /\ (exists q,
        calculate_accommodation_cost HotelCostCalculator_init 30 "el_hierro" = Ok q
        /\ (q == 395)%Q)
  /\ calculate_meal_cost HotelCostCalculator_init = 418
  /\ (exists q,
        calculate_coffee_break_cost HotelCostCalculator_init "el_hierro" = Ok q
        /\ (q == 42)%Q)
  /\ (exists q,
        calculate_meeting_room_cost HotelCostCalculator_init 30 "el_hierro" = Ok q
        /\ (q == 200 / 30)%Q)
  /\ (exists q,
        calculate_total_price_per_person HotelCostCalculator_init 30 "el_hierro"
          = Ok q
        /\ (q == 395 + 418 + 42 + 200 / 30)%Q
        /\ (q == (2585 # 3))%Q
        /\ ((86166 # 100) < q)%Q /\ (q < (86167 # 100))%Q).
Proof.
  split; [reflexivity|]. split; [reflexivity|].
  split; [eexists; split; reflexivity|]. split; [reflexivity|].
  split; [eexists; split; reflexivity|].
  split; [eexists; split; reflexivity|].
  eexists. repeat split.
Qed.

(** C7.  For each hotel of the catalogue and each group size [N] from 1 to
    its capacity, the accommodation cost per person that the calculator
    returns is [get_total_cost] of the allocation that [allocate_rooms]
    returns for [N], divided by [N]. *)
Theorem C7_accommodation_round_trip (hotel_key : string) (c : HotelConfig) (N : Z) :
  _initialize_hotels !! hotel_key = Some c ->
  1 <= N <= get_max_capacity c ->
  exists a,
    snd (allocate_rooms (Build_HotelAllocator c) N) = Ok a
    /\ calculate_accommodation_cost HotelCostCalculator_init N hotel_key
       = Ok (get_total_cost a (rates c) / inject_Z N)%Q.
Proof.
  intros Hc HN.
  destruct (allocate_rooms_post (Build_HotelAllocator c) (hotels_wf _ _ Hc) N
              ltac:(cbn [config]; lia)) as (a & Ha & _).
  exists a. unfold calculate_accommodation_cost.
  cbn [hotels HotelCostCalculator_init]. rewrite Hc, Ha. cbn [snd mbind result_bind].
  split; [reflexivity|]. apply truediv_pos. lia.
Qed.

Lemma C7_witness :
  exists a,
    snd (allocate_rooms (Build_HotelAllocator la_palma) 50) = Ok a
    /\ calculate_accommodation_cost HotelCostCalculator_init 50 "la_palma"
       = Ok (get_total_cost a (rates la_palma) / inject_Z 50)%Q.
Proof.
  apply (C7_accommodation_round_trip "la_palma" la_palma 50).
  - reflexivity.
  - vm_compute. split; discriminate.
Defined.

(** C9.  On a hotel with a non-negative inventory, for each group size [N]
    from 1 to the maximum capacity, the allocation that [allocate_rooms]
    returns has no single room when [N] is even and exactly one single
    room in all when [N] is odd. *)
Theorem C9_single_rooms_by_parity (self : HotelAllocator) (N : Z) :
  inventory_wf (config self) ->
  1 <= N <= get_max_capacity (config self) ->
  exists a,
    snd (allocate_rooms self N) = Ok a
    /\ (Z.even N = true -> standard_single a = 0 /\ superior_single a = 0)
    /\ (Z.odd N = true -> standard_single a + superior_single a = 1).
Proof.
  intros Hwf HN.
  destruct (allocate_rooms_post self Hwf N ltac:(lia))
    as (a & Ha & (_ & Hs1 & _ & Hs2) & _ & _ & Hpar).
  exists a. rewrite Ha. split; [reflexivity|].
  rewrite Zmod_even in Hpar. rewrite <- Z.negb_even.
  destruct (Z.even N); split; intros E; try discriminate; cbn in E; lia.
Qed.

Lemma C9_witness :
  exists a,
    snd (allocate_rooms (Build_HotelAllocator el_hierro) 79) = Ok a
    /\ (Z.even 79 = true -> standard_single a = 0 /\ superior_single a = 0)
    /\ (Z.odd 79 = true -> standard_single a + superior_single a = 1).
Proof.
  apply (C9_single_rooms_by_parity (Build_HotelAllocator el_hierro) 79).
  - unfold inventory_wf. cbn. lia.
  - vm_compute. split; discriminate.
Defined.

(** C10.  For a group of 0 and a key of the catalogue,
    [calculate_meeting_room_cost] divides by the group size without a guard
    and raises [ZeroDivisionError], and so do
    [calculate_total_price_per_person] (whose first division by the group
    size is the one of [calculate_accommodation_cost]) and
    [get_detailed_allocation], while
    [allocate_rooms] itself returns the allocation with no room at all. *)
Theorem C10_empty_group_divides_by_zero (hotel_key : string) (c : HotelConfig) :
  _initialize_hotels !! hotel_key = Some c ->
  calculate_meeting_room_cost HotelCostCalculator_init 0 hotel_key
    = Raise ZeroDivisionError
  /\ calculate_accommodation_cost HotelCostCalculator_init 0 hotel_key
    = Raise ZeroDivisionError
  /\ calculate_total_price_per_person HotelCostCalculator_init 0 hotel_key
    = Raise ZeroDivisionError
  /\ get_detailed_allocation HotelCostCalculator_init 0 hotel_key
    = Raise ZeroDivisionError
  /\ allocate_rooms (Build_HotelAllocator c) 0
    = (Build_HotelAllocator c, Ok RoomAllocation_default).
Proof.
  intros Hc.
  destruct (hotels_inv _ _ Hc) as [[-> ->] | [-> ->]]; repeat split.
Qed.

Lemma C10_witness :
  calculate_meeting_room_cost HotelCostCalculator_init 0 "la_palma"
    = Raise ZeroDivisionError
  /\ calculate_accommodation_cost HotelCostCalculator_init 0 "la_palma"
    = Raise ZeroDivisionError
  /\ calculate_total_price_per_person HotelCostCalculator_init 0 "la_palma"
    = Raise ZeroDivisionError
  /\ get_detailed_allocation HotelCostCalculator_init 0 "la_palma"
    = Raise ZeroDivisionError
  /\ allocate_rooms (Build_HotelAllocator la_palma) 0
    = (Build_HotelAllocator la_palma, Ok RoomAllocation_default).
Proof.
  apply (C10_empty_group_divides_by_zero "la_palma" la_palma).
  reflexivity.
Defined.

(** ** Why the inventory has to be non-negative

    With a negative room count the allocator can fail below the maximum
    capacity: 3 standard rooms and minus 1 superior room give a capacity of
    4, and a group of 3 is turned away by the closing check. *)
Example negative_inventory_fails :
  let c := {| name := "";
              inventory := {| standard_count := 3; superior_count := -1 |};
              rates := rates el_hierro;
              coffee_break_cost := 0; meeting_room_cost := 0 |} in
  get_max_capacity c = 4
  /\ snd (allocate_rooms (Build_HotelAllocator c) 3)
     = Raise (ValueError "Failed to allocate all people to rooms").
Proof. split; reflexivity. Qed.

(** * Further properties of the allocator, the calculator and the report *)

(** ** Which category is visited first *)

Lemma halves_le (a b : Q) : (a <= b)%Q -> (a / 2 <= b / 2)%Q.
Proof.
  intros H. unfold Qdiv. apply Qmult_le_compat_r; [exact H|]. discriminate.
Qed.

Lemma sort_two_le (c1 c2 : Q) :
  (c1 <= c2)%Q ->
  sort [(c1, "standard"); (c2, "superior")] = [(c1, "standard"); (c2, "superior")].
Proof.
  intros H. rewrite sort_two. unfold tuple_lt. cbn [fst snd].
  destruct (Qeq_bool c2 c1); [reflexivity|].
  apply Qle_bool_iff in H. rewrite H. reflexivity.
Qed.

Lemma sort_two_gt (c1 c2 : Q) :
  (c2 < c1)%Q ->
  sort [(c1, "standard"); (c2, "superior")] = [(c2, "superior"); (c1, "standard")].
Proof.
  intros H. rewrite sort_two. unfold tuple_lt. cbn [fst snd].
  destruct (Qeq_bool c2 c1) eqn:E.
  - apply Qeq_bool_iff in E. lra.
  - destruct (Qle_bool c1 c2) eqn:E'; [|reflexivity].
    apply Qle_bool_iff in E'. lra.
Qed.

Lemma halves_lt (a b : Q) : (a < b)%Q -> (a / 2 < b / 2)%Q.
Proof.
  intros H. unfold Qdiv. apply Qmult_lt_compat_r; [reflexivity | exact H].
Qed.

Lemma phase_result_eq (self : HotelAllocator) (x1 x2 x3 x4 n y1 y2 y3 y4 m : Z) :
  x1 = y1 -> x2 = y2 -> x3 = y3 -> x4 = y4 -> n = m ->
  (self, Build_RoomAllocation x1 x2 x3 x4, n) = (self, alloc y1 y2 y3 y4, m).
Proof. intros. subst. reflexivity. Qed.

Section ClosedForm.
Variable self : HotelAllocator.
Hypothesis Hwf : inventory_wf (config self).

Let S := standard_count (inventory (config self)).
Let P := superior_count (inventory (config self)).

Lemma shared_for_std_first (n : Z) (c1 c2 : Q) :
  0 <= n <= get_max_capacity (config self) ->
  _allocate_shared_rooms_for self [(c1, "standard"); (c2, "superior")]
    RoomAllocation_default n
  = (self, alloc (Z.min S (n / 2)) 0 (n / 2 - Z.min S (n / 2)) 0, n mod 2).
Proof.
  destruct Hwf as [HS HP]. fold S in HS. fold P in HP.
  unfold get_max_capacity. fold S. fold P. intros Hn.
  cbn [_allocate_shared_rooms_for String.eqb Ascii.eqb Bool.eqb].
  fold S; fold P; split_ifs; alloc_fields; apply phase_result_eq;
    Z.div_mod_to_equations; lia.
Qed.

Lemma shared_for_sup_first (n : Z) (c1 c2 : Q) :
  0 <= n <= get_max_capacity (config self) ->
  _allocate_shared_rooms_for self [(c2, "superior"); (c1, "standard")]
    RoomAllocation_default n
  = (self, alloc (n / 2 - Z.min P (n / 2)) 0 (Z.min P (n / 2)) 0, n mod 2).
Proof.
  destruct Hwf as [HS HP]. fold S in HS. fold P in HP.
  unfold get_max_capacity. fold S. fold P. intros Hn.
  cbn [_allocate_shared_rooms_for String.eqb Ascii.eqb Bool.eqb].
  fold S; fold P; split_ifs; alloc_fields; apply phase_result_eq;
    Z.div_mod_to_equations; lia.
Qed.

(** The single phase seating at most one person, from an allocation
    without single rooms. *)
Lemma single_for_std_first (x1 x3 r : Z) (c1 c2 : Q) :
  0 <= x1 <= S -> 0 <= x3 <= P -> 0 <= r <= 1 -> x1 + x3 + r <= S + P ->
  _allocate_single_rooms_for self [(c1, "standard"); (c2, "superior")]
    (alloc x1 0 x3 0) r
  = (self, alloc x1 (if x1 <? S then r else 0) x3 (if x1 <? S then 0 else r), 0).
Proof.
  intros H1 H3 Hr Hroom.
  cbn [_allocate_single_rooms_for String.eqb Ascii.eqb Bool.eqb].
  fold S; fold P; split_ifs; unfold alloc in *; alloc_fields;
    apply phase_result_eq; destruct (Z.ltb_spec x1 S); lia.
Qed.

Lemma single_for_sup_first (x1 x3 r : Z) (c1 c2 : Q) :
  0 <= x1 <= S -> 0 <= x3 <= P -> 0 <= r <= 1 -> x1 + x3 + r <= S + P ->
  _allocate_single_rooms_for self [(c2, "superior"); (c1, "standard")]
    (alloc x1 0 x3 0) r
  = (self, alloc x1 (if x3 <? P then 0 else r) x3 (if x3 <? P then r else 0), 0).
Proof.
  intros H1 H3 Hr Hroom.
  cbn [_allocate_single_rooms_for String.eqb Ascii.eqb Bool.eqb].
  fold S; fold P; split_ifs; unfold alloc in *; alloc_fields;
    apply phase_result_eq; destruct (Z.ltb_spec x3 P); lia.
Qed.
End ClosedForm.

(** X5.  When the standard rates do not exceed the superior ones, shared
    and single, the allocation for [N] people is: [min(standard_count, N//2)]
    standard shared rooms, the other [N//2] pairs in superior shared rooms,
    and for an odd [N] one single room, standard if a standard room is
    left and superior otherwise. *)
Theorem X5_standard_first_closed_form (self : HotelAllocator) (N : Z) :
  inventory_wf (config self) ->
  0 <= N <= get_max_capacity (config self) ->
  (shared_rate (standard (rates (config self)))
   <= shared_rate (superior (rates (config self))))%Q ->
  (single_rate (standard (rates (config self)))
   <= single_rate (superior (rates (config self))))%Q ->
  let S := standard_count (inventory (config self)) in
  allocate_rooms self N =
    (self, Ok (alloc (Z.min S (N / 2))
                     (if N / 2 <? S then N mod 2 else 0)
                     (N / 2 - Z.min S (N / 2))
                     (if N / 2 <? S then 0 else N mod 2))).
Proof.
  intros Hwf HN Hshared Hsingle S.
  pose proof Hwf as [HS HP]. fold S in HS.
  pose proof HN as HN'. unfold get_max_capacity in HN'. fold S in HN'.
  pose proof (Z.mod_pos_bound N 2 ltac:(lia)) as Hmb.
  pose proof (Z.div_mod N 2 ltac:(lia)) as Hdm.
  unfold allocate_rooms. rewrite Z.gtb_ltb.
  destruct (Z.ltb_spec (get_max_capacity (config self)) N); [lia|].
  unfold _allocate_shared_rooms.
  rewrite (sort_two_le _ _ (halves_le _ _ Hshared)).
  rewrite (shared_for_std_first self Hwf N _ _ HN). fold S.
  unfold _allocate_single_rooms. rewrite (sort_two_le _ _ Hsingle).
  rewrite single_for_std_first by (fold S; lia). fold S.
  cbn [Z.gtb Z.compare]. do 2 f_equal.
  destruct (Z.ltb_spec (Z.min S (N / 2)) S), (Z.ltb_spec (N / 2) S);
    try reflexivity; lia.
Qed.

Lemma X5_standard_first_closed_form_witness :
  allocate_rooms (Build_HotelAllocator la_palma) 43 =
    (Build_HotelAllocator la_palma, Ok (alloc 21 0 0 1)).
Proof.
  apply (X5_standard_first_closed_form (Build_HotelAllocator la_palma) 43).
  - unfold inventory_wf. cbn. lia.
  - vm_compute. split; discriminate.
  - vm_compute. discriminate.
  - vm_compute. discriminate.
Defined.

(** A rate that is a whole number below 2^53 in magnitude, as every rate of
    the catalogue is.  For such a rate the interpreter's [rate / 2] is the
    exact half, so that two different rates have different halves. *)
Definition whole_rate (q : Q) (r : Z) : Prop :=
  q = inject_Z r /\ Z.abs r < 2 ^ 53.

(** X6.  The shared phase follows the prices, not the order of the
    categories in the source: when both shared rates are whole numbers
    below 2^53 in magnitude and the superior one is strictly below the
    standard one, superior rooms are filled first and standard rooms take
    only the pairs that are left. *)
Theorem X6_cheaper_superior_fills_first (self : HotelAllocator) (N : Z)
    (r_standard r_superior : Z) :
  inventory_wf (config self) ->
  0 <= N <= get_max_capacity (config self) ->
  whole_rate (shared_rate (standard (rates (config self)))) r_standard ->
  whole_rate (shared_rate (superior (rates (config self)))) r_superior ->
  r_superior < r_standard ->
  exists a,
    snd (allocate_rooms self N) = Ok a
    /\ superior_shared a = Z.min (superior_count (inventory (config self))) (N / 2)
    /\ standard_shared a = N / 2 - superior_shared a.
Proof.
  intros Hwf HN [Estd _] [Esup _] Hlt.
  assert (Hshared : (shared_rate (superior (rates (config self)))
                     < shared_rate (standard (rates (config self))))%Q).
  { rewrite Estd, Esup. rewrite <- Zlt_Qlt. exact Hlt. }
  pose proof Hwf as [HS HP].
  pose proof HN as HN'. unfold get_max_capacity in HN'.
  pose proof (Z.mod_pos_bound N 2 ltac:(lia)) as Hmb.
  pose proof (Z.div_mod N 2 ltac:(lia)) as Hdm.
  pose proof (allocate_rooms_post self Hwf N HN) as (a & Ha & _).
  exists a. rewrite Ha. split; [reflexivity|].
  revert Ha. unfold allocate_rooms. rewrite Z.gtb_ltb.
  destruct (Z.ltb_spec (get_max_capacity (config self)) N); [lia|].
  unfold _allocate_shared_rooms.
  rewrite (sort_two_gt _ _ (halves_lt _ _ Hshared)).
  rewrite (shared_for_sup_first self Hwf N _ _ HN).
  match goal with
  | |- context [_allocate_single_rooms self ?a0 ?r] =>
      pose proof (single_rooms_post self a0 r) as Hsi;
      destruct (_allocate_single_rooms self a0 r) as [[self2 a2] pr2]
  end.
  unfold alloc in Hsi. cbn [standard_shared standard_single superior_shared
    superior_single] in Hsi.
  destruct Hsi as (_ & Hi1 & Hi2 & _); try lia.
  cbn [standard_shared superior_shared] in Hi1, Hi2.
  destruct (pr2 >? 0); intros E; inversion E; subst a. lia.
Qed.

Lemma X6_cheaper_superior_fills_first_witness :
  exists a,
    snd (allocate_rooms (Build_HotelAllocator
           {| name := "swapped";
              inventory := {| standard_count := 20; superior_count := 20 |};
              rates := {| standard := {| shared_rate := 181; single_rate := 159 |};
                          superior := {| shared_rate := 158; single_rate := 136 |} |};
              coffee_break_cost := 7; meeting_room_cost := 200 |}) 45) = Ok a
    /\ superior_shared a = Z.min 20 (45 / 2)
    /\ standard_shared a = 45 / 2 - superior_shared a.
Proof.
  apply (X6_cheaper_superior_fills_first (Build_HotelAllocator
           {| name := "swapped";
              inventory := {| standard_count := 20; superior_count := 20 |};
              rates := {| standard := {| shared_rate := 181; single_rate := 159 |};
                          superior := {| shared_rate := 158; single_rate := 136 |} |};
              coffee_break_cost := 7; meeting_room_cost := 200 |}) 45 181 158).
  - unfold inventory_wf. cbn. lia.
  - vm_compute. split; discriminate.
  - split; [reflexivity | vm_compute; reflexivity].
  - split; [reflexivity | vm_compute; reflexivity].
  - reflexivity.
Defined.

(** X4.  On a hotel with a non-negative inventory, for each group size [N]
    from 0 to the maximum capacity, [get_total_rooms_used] of the
    allocation is [N] halved and rounded up. *)
Theorem X4_rooms_used_is_half_rounded_up (self : HotelAllocator) (N : Z) :
  inventory_wf (config self) ->
  0 <= N <= get_max_capacity (config self) ->
  exists a,
    snd (allocate_rooms self N) = Ok a
    /\ get_total_rooms_used a = (N + 1) / 2.
Proof.
  intros Hwf HN.
  destruct (allocate_rooms_post self Hwf N HN)
    as (a & Ha & _ & _ & Hpeople & Hpar).
  exists a. rewrite Ha. split; [reflexivity|].
  unfold get_total_rooms_used. unfold people_housed in Hpeople.
  Z.div_mod_to_equations. lia.
Qed.

Lemma X4_rooms_used_is_half_rounded_up_witness :
  exists a,
    snd (allocate_rooms (Build_HotelAllocator el_hierro) 45) = Ok a
    /\ get_total_rooms_used a = (45 + 1) / 2.
Proof.
  apply (X4_rooms_used_is_half_rounded_up (Build_HotelAllocator el_hierro) 45).
  - unfold inventory_wf. cbn. lia.
  - vm_compute. split; discriminate.
Defined.

Lemma allocate_rooms_non_positive (self : HotelAllocator) (N : Z) :
  N <= 0 -> N <= get_max_capacity (config self) ->
  allocate_rooms self N = (self, Ok RoomAllocation_default).
Proof.
  intros HN Hcap. unfold allocate_rooms. rewrite Z.gtb_ltb.
  destruct (Z.ltb_spec (get_max_capacity (config self)) N); [lia|].
  unfold _allocate_shared_rooms, _allocate_single_rooms.
  assert (E : (N <=? 0) = true) by (apply Z.leb_le; exact HN).
  rewrite sort_two.
  match goal with |- context [tuple_lt ?x ?y] => destruct (tuple_lt x y) end;
    cbn [_allocate_shared_rooms_for]; rewrite E; rewrite sort_two;
    match goal with |- context [tuple_lt ?x ?y] => destruct (tuple_lt x y) end;
    cbn [_allocate_single_rooms_for]; rewrite E;
    rewrite Z.gtb_ltb; destruct (Z.ltb_spec 0 N); try lia; reflexivity.
Qed.

(** X2.  A group size of zero or less that does not exceed the capacity is
    not rejected: both loops leave at once and [allocate_rooms] returns the
    allocation without any room, leaving the allocator as it was. *)
Theorem X2_non_positive_group_gets_no_room (self : HotelAllocator) (N : Z) :
  N <= 0 -> N <= get_max_capacity (config self) ->
  allocate_rooms self N = (self, Ok RoomAllocation_default).
Proof. exact (allocate_rooms_non_positive self N). Qed.

Lemma X2_non_positive_group_gets_no_room_witness :
  allocate_rooms (Build_HotelAllocator el_hierro) (-7)
  = (Build_HotelAllocator el_hierro, Ok RoomAllocation_default).
Proof.
  apply (X2_non_positive_group_gets_no_room (Build_HotelAllocator el_hierro) (-7)).
  - discriminate.
  - discriminate.
Defined.

(** X3.  On a hotel with a non-negative inventory the closing
    "Failed to allocate all people to rooms" error of [allocate_rooms] is
    raised for no integer group size. *)
Theorem X3_closing_check_never_fires (self : HotelAllocator) (N : Z) :
  inventory_wf (config self) ->
  snd (allocate_rooms self N)
  <> Raise (ValueError "Failed to allocate all people to rooms").
Proof.
  intros Hwf.
  destruct (Z.lt_ge_cases (get_max_capacity (config self)) N) as [Hover | Hfit].
  - unfold allocate_rooms. rewrite Z.gtb_ltb.
    destruct (Z.ltb_spec (get_max_capacity (config self)) N); [|lia].
    cbn [snd]. unfold capacity_message. cbn [String.append]. discriminate.
  - destruct (Z.lt_ge_cases N 0) as [Hneg | Hpos].
    + rewrite allocate_rooms_non_positive by lia. discriminate.
    + destruct (allocate_rooms_post self Hwf N ltac:(lia)) as (a & Ha & _).
      rewrite Ha. discriminate.
Qed.

Lemma X3_closing_check_never_fires_witness :
  snd (allocate_rooms (Build_HotelAllocator la_palma) 89)
  <> Raise (ValueError "Failed to allocate all people to rooms").
Proof.
  apply (X3_closing_check_never_fires (Build_HotelAllocator la_palma) 89).
  unfold inventory_wf. cbn. lia.
Defined.

Lemma inject_Z_nonzero (n : Z) : n <> 0 -> ~ (inject_Z n == 0)%Q.
Proof. intros Hn E. unfold Qeq, inject_Z in E. cbn in E. lia. Qed.

Lemma truediv_nonzero (a : Q) (n : Z) :
  n <> 0 -> truediv a (inject_Z n) = Ok (a / inject_Z n)%Q.
Proof.
  intros Hn. unfold truediv.
  destruct (Qeq_bool (inject_Z n) 0) eqn:E; [|reflexivity].
  apply Qeq_bool_iff in E. destruct (inject_Z_nonzero n Hn E).
Qed.

(** X1.  With a key that is not in the calculator's hotels, every method
    that takes a key raises [ValueError] with the text "Unknown hotel: "
    followed by the key, whatever the group size: the key is looked up
    before anything is allocated or divided. *)
Theorem X1_unknown_hotel_raises (self : HotelCostCalculator) (N : Z)
    (hotel_key : string) :
  hotels self !! hotel_key = None ->
  let e := ValueError ("Unknown hotel: " ++ hotel_key)%string in
  calculate_accommodation_cost self N hotel_key = Raise e
  /\ calculate_coffee_break_cost self hotel_key = Raise e
  /\ calculate_meeting_room_cost self N hotel_key = Raise e
  /\ calculate_total_price_per_person self N hotel_key = Raise e
  /\ get_detailed_allocation self N hotel_key = Raise e.
Proof.
  intros H e.
  unfold calculate_total_price_per_person, calculate_accommodation_cost,
    calculate_coffee_break_cost, calculate_meeting_room_cost,
    get_detailed_allocation.
  rewrite H. repeat split.
Qed.

Lemma X1_unknown_hotel_raises_witness :
  let e := ValueError "Unknown hotel: tenerife" in
  calculate_accommodation_cost HotelCostCalculator_init 0 "tenerife" = Raise e
  /\ calculate_coffee_break_cost HotelCostCalculator_init "tenerife" = Raise e
  /\ calculate_meeting_room_cost HotelCostCalculator_init 0 "tenerife" = Raise e
  /\ calculate_total_price_per_person HotelCostCalculator_init 0 "tenerife" = Raise e
  /\ get_detailed_allocation HotelCostCalculator_init 0 "tenerife" = Raise e.
Proof.
  apply (X1_unknown_hotel_raises HotelCostCalculator_init 0 "tenerife").
  reflexivity.
Defined.

(** X8.  For a known key and a group above the hotel's capacity, the
    allocator's [ValueError] comes out of [calculate_accommodation_cost],
    [calculate_total_price_per_person] and [get_detailed_allocation]
    unchanged, while [calculate_meeting_room_cost], which checks no
    capacity, still returns the share. *)
Theorem X8_oversized_group_through_calculator (self : HotelCostCalculator)
    (hotel_key : string) (c : HotelConfig) (N : Z) :
  hotels self !! hotel_key = Some c ->
  get_max_capacity c < N ->
  let e := ValueError
    ("Group size " ++ str_int N ++ " exceeds hotel maximum capacity "
     ++ str_int (get_max_capacity c))%string in
  calculate_accommodation_cost self N hotel_key = Raise e
  /\ calculate_total_price_per_person self N hotel_key = Raise e
  /\ get_detailed_allocation self N hotel_key = Raise e
  /\ (N <> 0 ->
      calculate_meeting_room_cost self N hotel_key
      = Ok (meeting_room_cost c / inject_Z N)%Q).
Proof.
  intros Hc HN e.
  assert (Ha : snd (allocate_rooms (Build_HotelAllocator c) N) = Raise e).
  { unfold allocate_rooms. cbn [config]. rewrite Z.gtb_ltb.
    destruct (Z.ltb_spec (get_max_capacity c) N); [reflexivity | lia]. }
  unfold calculate_total_price_per_person, calculate_accommodation_cost,
    get_detailed_allocation, calculate_meeting_room_cost.
  rewrite Hc, Ha. repeat split.
  intros HN0. apply truediv_nonzero, HN0.
Qed.

Lemma X8_oversized_group_through_calculator_witness :
  let e := ValueError "Group size 91 exceeds hotel maximum capacity 90" in
  calculate_accommodation_cost HotelCostCalculator_init 91 "la_palma" = Raise e
  /\ calculate_total_price_per_person HotelCostCalculator_init 91 "la_palma" = Raise e
  /\ get_detailed_allocation HotelCostCalculator_init 91 "la_palma" = Raise e
  /\ (91 <> 0 ->
      calculate_meeting_room_cost HotelCostCalculator_init 91 "la_palma"
      = Ok (meeting_room_cost la_palma / inject_Z 91)%Q).
Proof.
  apply (X8_oversized_group_through_calculator HotelCostCalculator_init
           "la_palma" la_palma 91).
  - reflexivity.
  - reflexivity.
Defined.

(** X9.  A negative group size is priced rather than rejected: the
    accommodation cost per person is 0, and the total per person is the
    meal cost plus the coffee breaks plus the meeting-room cost divided by
    the negative size, a negative share when the room has a price. *)
Theorem X9_negative_group_is_priced (self : HotelCostCalculator)
    (hotel_key : string) (c : HotelConfig) (N : Z) :
  hotels self !! hotel_key = Some c ->
  N < 0 -> N <= get_max_capacity c ->
  exists accommodation total,
    calculate_accommodation_cost self N hotel_key = Ok accommodation
    /\ (accommodation == 0)%Q
    /\ calculate_total_price_per_person self N hotel_key = Ok total
    /\ (total == inject_Z (calculate_meal_cost self)
                 + inject_Z (2 * (NIGHTS - 2)) * coffee_break_cost c
                 + meeting_room_cost c / inject_Z N)%Q
    /\ (0 < meeting_room_cost c -> meeting_room_cost c / inject_Z N < 0)%Q.
Proof.
  intros Hc HN Hcap.
  assert (Ha : snd (allocate_rooms (Build_HotelAllocator c) N)
               = Ok RoomAllocation_default).
  { rewrite allocate_rooms_non_positive by (cbn [config]; lia). reflexivity. }
  unfold calculate_total_price_per_person, calculate_accommodation_cost,
    calculate_coffee_break_cost, calculate_meeting_room_cost.
  rewrite Hc, Ha. cbn [mbind result_bind].
  rewrite !truediv_nonzero by lia. cbn [mbind result_bind].
  eexists. eexists. split; [reflexivity|].
  assert (E0 : (get_total_cost RoomAllocation_default (rates c) / inject_Z N == 0)%Q).
  { unfold get_total_cost, RoomAllocation_default, Qdiv.
    cbn [standard_shared standard_single superior_shared superior_single].
    change (inject_Z 0) with 0%Q. ring. }
  split; [exact E0|]. split; [reflexivity|]. split.
  - rewrite E0. ring.
  - intros Hpos. unfold Qdiv.
    assert (Hinv : (/ inject_Z N < 0)%Q).
    { destruct N as [|p|p]; try lia. reflexivity. }
    apply (Qlt_le_trans _ (meeting_room_cost c * 0)%Q).
    + apply Qmult_lt_l; assumption.
    + rewrite Qmult_0_r. apply Qle_refl.
Qed.

Lemma X9_negative_group_is_priced_witness :
  exists accommodation total,
    calculate_accommodation_cost HotelCostCalculator_init (-2) "el_hierro"
      = Ok accommodation
    /\ (accommodation == 0)%Q
    /\ calculate_total_price_per_person HotelCostCalculator_init (-2) "el_hierro"
      = Ok total
    /\ (total == inject_Z (calculate_meal_cost HotelCostCalculator_init)
                 + inject_Z (2 * (NIGHTS - 2)) * coffee_break_cost el_hierro
                 + meeting_room_cost el_hierro / inject_Z (-2))%Q
    /\ (0 < meeting_room_cost el_hierro ->
        meeting_room_cost el_hierro / inject_Z (-2) < 0)%Q.
Proof.
  apply (X9_negative_group_is_priced HotelCostCalculator_init "el_hierro"
           el_hierro (-2)).
  - reflexivity.
  - reflexivity.
  - discriminate.
Defined.

Lemma allocate_rooms_ok (c : HotelConfig) (N : Z) :
  inventory_wf c -> N <= get_max_capacity c ->
  exists a, snd (allocate_rooms (Build_HotelAllocator c) N) = Ok a.
Proof.
  intros Hwf HN. destruct (Z.lt_ge_cases N 0) as [Hneg | Hpos].
  - exists RoomAllocation_default.
    rewrite allocate_rooms_non_positive by (cbn [config]; lia). reflexivity.
  - destruct (allocate_rooms_post (Build_HotelAllocator c) Hwf N
                ltac:(cbn [config]; lia)) as (a & Ha & _).
    exists a. rewrite Ha. reflexivity.
Qed.

(** X10.  For a group from 1 to the capacity, [get_detailed_allocation]
    returns the allocation of [allocate_rooms] with its [get_total_cost],
    meals for the whole group, and a meeting-room total that is the hotel's
    meeting-room cost again; the four totals add up to [N] times
    [calculate_total_price_per_person] (over exact rationals). *)
Theorem X10_detailed_allocation_totals (self : HotelCostCalculator)
    (hotel_key : string) (c : HotelConfig) (N : Z) :
  hotels self !! hotel_key = Some c ->
  inventory_wf c ->
  1 <= N <= get_max_capacity c ->
  exists a per_person coffee_total meeting_total,
    snd (allocate_rooms (Build_HotelAllocator c) N) = Ok a
    /\ calculate_total_price_per_person self N hotel_key = Ok per_person
    /\ get_detailed_allocation self N hotel_key
       = Ok (a, get_total_cost a (rates c), calculate_meal_cost self * N,
             coffee_total, meeting_total)
    /\ (meeting_total == meeting_room_cost c)%Q
    /\ (get_total_cost a (rates c) + inject_Z (calculate_meal_cost self * N)
        + coffee_total + meeting_total == per_person * inject_Z N)%Q.
Proof.
  intros Hc Hwf HN.
  destruct (allocate_rooms_ok c N Hwf ltac:(lia)) as [a Ha].
  pose proof (inject_Z_nonzero N ltac:(lia)) as Hnz.
  unfold calculate_total_price_per_person, get_detailed_allocation,
    calculate_accommodation_cost, calculate_coffee_break_cost,
    calculate_meeting_room_cost.
  rewrite Hc, Ha. cbn [mbind result_bind].
  rewrite !truediv_nonzero by lia. cbn [mbind result_bind].
  exists a. do 3 eexists.
  split; [reflexivity|]. split; [reflexivity|]. split; [reflexivity|].
  rewrite inject_Z_mult. split; field; exact Hnz.
Qed.

Lemma X10_detailed_allocation_totals_witness :
  exists a per_person coffee_total meeting_total,
    snd (allocate_rooms (Build_HotelAllocator el_hierro) 45) = Ok a
    /\ calculate_total_price_per_person HotelCostCalculator_init 45 "el_hierro"
       = Ok per_person
    /\ get_detailed_allocation HotelCostCalculator_init 45 "el_hierro"
       = Ok (a, get_total_cost a (rates el_hierro),
             calculate_meal_cost HotelCostCalculator_init * 45,
             coffee_total, meeting_total)
    /\ (meeting_total == meeting_room_cost el_hierro)%Q
    /\ (get_total_cost a (rates el_hierro)
        + inject_Z (calculate_meal_cost HotelCostCalculator_init * 45)
        + coffee_total + meeting_total == per_person * inject_Z 45)%Q.
Proof.
  apply (X10_detailed_allocation_totals HotelCostCalculator_init "el_hierro"
           el_hierro 45).
  - reflexivity.
  - unfold inventory_wf. cbn. lia.
  - vm_compute. split; discriminate.
Defined.

(** X11.  While an even group fits in the standard rooms, two to a room,
    and standard shared is not dearer than superior shared, the
    accommodation cost per person does not depend on the group size: it is
    [NIGHTS] times half the standard shared rate. *)
Theorem X11_flat_price_in_standard_shared (self : HotelCostCalculator)
    (hotel_key : string) (c : HotelConfig) (N : Z) :
  hotels self !! hotel_key = Some c ->
  inventory_wf c ->
  (shared_rate (standard (rates c)) <= shared_rate (superior (rates c)))%Q ->
  1 <= N <= standard_count (inventory c) * 2 ->
  Z.even N = true ->
  exists q,
    calculate_accommodation_cost self N hotel_key = Ok q
    /\ (q == inject_Z NIGHTS * (shared_rate (standard (rates c)) / 2))%Q.
Proof.
  intros Hc Hwf Hshared HN Heven.
  pose proof Hwf as [HS HP].
  assert (Hcap : 0 <= N <= get_max_capacity (Build_HotelAllocator c).(config))
    by (cbn [config]; unfold get_max_capacity; lia).
  pose proof (Zmod_even N) as Hmod. rewrite Heven in Hmod.
  pose proof (Z.div_mod N 2 ltac:(lia)) as Hdm.
  destruct (allocate_rooms_post (Build_HotelAllocator c) Hwf N Hcap)
    as (a & Ha & (_ & Hs1 & _ & Hs2) & _ & _ & Hpar).
  assert (Hsh : standard_shared a = N / 2 /\ superior_shared a = 0).
  { revert Ha. unfold allocate_rooms. rewrite Z.gtb_ltb.
    destruct (Z.ltb_spec (get_max_capacity (config (Build_HotelAllocator c))) N);
      [lia|].
    unfold _allocate_shared_rooms. cbn [config].
    rewrite (sort_two_le _ _ (halves_le _ _ Hshared)).
    rewrite (shared_for_std_first (Build_HotelAllocator c) Hwf N _ _ Hcap).
    match goal with
    | |- context [_allocate_single_rooms ?s ?a0 ?r] =>
        pose proof (single_rooms_post s a0 r) as Hsi;
        destruct (_allocate_single_rooms s a0 r) as [[self2 a2] pr2]
    end.
    cbn [config] in Hsi.
    destruct Hsi as (_ & Hi1 & Hi2 & _);
      try (unfold alloc; cbn [standard_shared standard_single superior_shared
             superior_single]; lia).
    unfold alloc in Hi1, Hi2. cbn [standard_shared superior_shared] in Hi1, Hi2.
    destruct (pr2 >? 0); intros E; inversion E; subst a. lia. }
  destruct Hsh as [Hss Hps].
  unfold calculate_accommodation_cost. rewrite Hc, Ha. cbn [snd mbind result_bind].
  rewrite truediv_nonzero by lia. eexists. split; [reflexivity|].
  unfold get_total_cost.
  replace (standard_single a) with 0 by lia.
  replace (superior_single a) with 0 by lia.
  rewrite Hss, Hps.
  assert (EN : (inject_Z N == 2 * inject_Z (N / 2))%Q).
  { rewrite Hdm at 1. rewrite Hmod, Z.add_0_r, inject_Z_mult. reflexivity. }
  rewrite EN. change (inject_Z 0) with 0%Q.
  field. apply inject_Z_nonzero. lia.
Qed.

Lemma X11_flat_price_in_standard_shared_witness :
  exists q,
    calculate_accommodation_cost HotelCostCalculator_init 42 "la_palma" = Ok q
    /\ (q == inject_Z NIGHTS * (shared_rate (standard (rates la_palma)) / 2))%Q.
Proof.
  apply (X11_flat_price_in_standard_shared HotelCostCalculator_init "la_palma"
           la_palma 42).
  - reflexivity.
  - unfold inventory_wf. cbn. lia.
  - vm_compute. discriminate.
  - vm_compute. split; discriminate.
  - reflexivity.
Defined.

(** The sizes the row theorems speak of: not 0, and below 2^53 in
    magnitude, which a float holds exactly. *)
Definition printable_size (N : Z) : Prop := N <> 0 /\ Z.abs N < 2 ^ 53.

Lemma exact_int_fits_float (N : Z) : Z.abs N < 2 ^ 53 -> Z.abs N < float_limit.
Proof.
  intros H. apply (Z.lt_trans _ (2 ^ 53)); [exact H | reflexivity].
Qed.

Lemma catalogue_capacity_fits (hotel_key : string) (c : HotelConfig) :
  _initialize_hotels !! hotel_key = Some c ->
  0 <= get_max_capacity c < float_limit.
Proof.
  intros Hc. destruct (hotels_inv _ _ Hc) as [[_ ->] | [_ ->]].
  - split; [discriminate | reflexivity].
  - split; [discriminate | reflexivity].
Qed.

Lemma float_times_int_fits (x : Q) (n : Z) :
  Z.abs n < float_limit -> float_times_int x n = Ok (x * inject_Z n)%Q.
Proof.
  intros Hn. unfold float_times_int, int_fits_float.
  destruct (Z.ltb_spec (Z.abs n) float_limit); [reflexivity | lia].
Qed.

Lemma float_times_int_overflow (x : Q) (n : Z) :
  float_limit <= Z.abs n -> float_times_int x n = Raise OverflowError.
Proof.
  intros Hn. unfold float_times_int, int_fits_float.
  destruct (Z.ltb_spec (Z.abs n) float_limit); [lia | reflexivity].
Qed.

Lemma print_comparison_row_line (hotel_key : string) (c : HotelConfig) (N : Z) :
  _initialize_hotels !! hotel_key = Some c -> printable_size N ->
  exists l,
    print_comparison_row HotelCostCalculator_init hotel_key N = Ok l
    /\ line_for c N l.
Proof.
  intros Hc [HN Hfit].
  unfold print_comparison_row, calculate_accommodation_cost,
    calculate_coffee_break_cost, calculate_meeting_room_cost.
  cbn [hotels HotelCostCalculator_init]. rewrite Hc.
  destruct (Z.lt_ge_cases (get_max_capacity c) N) as [Hover | Hsmall].
  - unfold allocate_rooms. cbn [config]. rewrite Z.gtb_ltb.
    destruct (Z.ltb_spec (get_max_capacity c) N); [|lia].
    cbn [snd mbind result_bind]. eexists. split; [reflexivity|].
    cbn [line_for]. auto.
  - destruct (allocate_rooms_ok c N (hotels_wf _ _ Hc) Hsmall) as [a Ha].
    rewrite Ha. cbn [mbind result_bind]. rewrite !truediv_nonzero by exact HN.
    cbn [mbind result_bind].
    rewrite float_times_int_fits by (apply exact_int_fits_float, Hfit).
    cbn [mbind result_bind]. eexists. split; [reflexivity|].
    cbn [line_for]. split; [reflexivity|]. split; [exact Hsmall|reflexivity].
Qed.

Lemma print_comparison_row_zero (hotel_key : string) (c : HotelConfig) :
  _initialize_hotels !! hotel_key = Some c ->
  print_comparison_row HotelCostCalculator_init hotel_key 0
  = Raise ZeroDivisionError.
Proof.
  intros Hc. pose proof (catalogue_capacity_fits _ _ Hc) as Hcap.
  unfold print_comparison_row, calculate_accommodation_cost.
  cbn [hotels HotelCostCalculator_init].
  rewrite Hc, allocate_rooms_non_positive by (cbn [config]; lia).
  reflexivity.
Qed.

Lemma print_comparison_row_overflow (hotel_key : string) (c : HotelConfig)
    (N : Z) :
  _initialize_hotels !! hotel_key = Some c -> N <= - float_limit ->
  print_comparison_row HotelCostCalculator_init hotel_key N
  = Raise OverflowError.
Proof.
  intros Hc HN. pose proof (catalogue_capacity_fits _ _ Hc) as Hcap.
  unfold print_comparison_row, calculate_accommodation_cost,
    calculate_coffee_break_cost, calculate_meeting_room_cost.
  cbn [hotels HotelCostCalculator_init].
  rewrite Hc, allocate_rooms_non_positive by (cbn [config]; lia).
  cbn [snd mbind result_bind]. rewrite !truediv_nonzero by lia.
  cbn [mbind result_bind]. rewrite float_times_int_overflow by lia.
  reflexivity.
Qed.

Lemma print_comparison_rows_app (self : HotelCostCalculator)
    (hotel_key : string) (l1 l2 : list Z) (printed : list report_line) :
  print_comparison_rows self hotel_key (l1 ++ l2)%list printed =
    match print_comparison_rows self hotel_key l1 printed with
    | (printed', None) => print_comparison_rows self hotel_key l2 printed'
    | stopped => stopped
    end.
Proof.
  revert printed. induction l1 as [|n l1 IH]; intros printed.
  - reflexivity.
  - cbn [print_comparison_rows app].
    destruct (print_comparison_row self hotel_key n) as [line|e].
    + apply IH.
    + reflexivity.
Qed.

Lemma print_comparison_rows_complete (hotel_key : string) (c : HotelConfig)
    (group_sizes : list Z) (printed : list report_line) :
  _initialize_hotels !! hotel_key = Some c ->
  Forall printable_size group_sizes ->
  exists lines,
    print_comparison_rows HotelCostCalculator_init hotel_key group_sizes printed
      = ((printed ++ lines)%list, None)
    /\ Forall2 (line_for c) group_sizes lines.
Proof.
  intros Hc Hsizes. revert printed.
  induction Hsizes as [|n group_sizes Hn Hsizes IH]; intros printed.
  - exists []. rewrite app_nil_r. split; [reflexivity | constructor].
  - destruct (print_comparison_row_line hotel_key c n Hc Hn) as (l & Hl & Hline).
    destruct (IH (printed ++ [l])%list) as (lines & Hrows & Hall).
    exists (l :: lines). cbn [print_comparison_rows]. rewrite Hl, Hrows.
    rewrite <- app_assoc. split; [reflexivity|]. constructor; assumption.
Qed.

(** What the loop does when the group sizes [before] are followed by a size
    whose row raises an exception that is not a [ValueError]. *)
Lemma print_comparison_rows_stop (hotel_key : string) (c : HotelConfig)
    (before after : list Z) (stop : Z) (e : exception) :
  _initialize_hotels !! hotel_key = Some c ->
  Forall printable_size before ->
  print_comparison_row HotelCostCalculator_init hotel_key stop = Raise e ->
  exists lines,
    print_comparison_rows HotelCostCalculator_init hotel_key
      (before ++ stop :: after)%list []
      = (lines, Some e)
    /\ Forall2 (line_for c) before lines.
Proof.
  intros Hc Hsizes Hstop.
  destruct (print_comparison_rows_complete hotel_key c before [] Hc Hsizes)
    as (lines & Hrows & Hall).
  exists lines. rewrite print_comparison_rows_app, Hrows.
  cbn [print_comparison_rows app]. rewrite Hstop.
  split; [reflexivity | exact Hall].
Qed.

(** X12.  In the row loop of [print_comparison] for a hotel of the
    catalogue, over group sizes none of which is 0 or reaches 2^53 in
    magnitude, the loop runs to its end and prints one line per
    size, in order: the N/A line with the capacity message for a size above
    capacity, and a priced line, whose total is the total per person times
    the size, for every other size, the negative ones included. *)
Theorem X12_report_rows_without_zero (hotel_key : string) (c : HotelConfig)
    (group_sizes : list Z) :
  _initialize_hotels !! hotel_key = Some c ->
  Forall printable_size group_sizes ->
  exists lines,
    print_comparison_rows HotelCostCalculator_init hotel_key group_sizes []
      = (lines, None)
    /\ Forall2 (line_for c) group_sizes lines.
Proof.
  intros Hc Hsizes.
  exact (print_comparison_rows_complete hotel_key c group_sizes [] Hc Hsizes).
Qed.

(** X13.  A group size of 0 ends the row loop of [print_comparison], for a
    hotel of the catalogue, with a [ZeroDivisionError], which
    [except ValueError] does not catch: the lines of the sizes before it
    (none of them 0 or as large as 2^53 in magnitude) are printed, nothing is
    printed for it or for the sizes after it. *)
Theorem X13_report_stops_at_zero (hotel_key : string) (c : HotelConfig)
    (before after : list Z) :
  _initialize_hotels !! hotel_key = Some c ->
  Forall printable_size before ->
  exists lines,
    print_comparison_rows HotelCostCalculator_init hotel_key
      (before ++ 0 :: after)%list []
      = (lines, Some ZeroDivisionError)
    /\ Forall2 (line_for c) before lines.
Proof.
  intros Hc Hsizes.
  apply (print_comparison_rows_stop hotel_key c before after 0 _ Hc Hsizes).
  exact (print_comparison_row_zero hotel_key c Hc).
Qed.

(** X15.  A negative group size of magnitude [2^1024 - 2^970] or more ends
    the row loop of [print_comparison], for a hotel of the catalogue, with
    an [OverflowError]: the allocation and the three quotients go through,
    and the product of the total per person by the size cannot convert the
    size to a float.  [except ValueError] does not catch it: the lines of
    the sizes before it are printed, none for it or after it. *)
Theorem X15_report_stops_at_overflow (hotel_key : string) (c : HotelConfig)
    (before after : list Z) (N : Z) :
  _initialize_hotels !! hotel_key = Some c ->
  Forall printable_size before ->
  N <= - float_limit ->
  exists lines,
    print_comparison_rows HotelCostCalculator_init hotel_key
      (before ++ N :: after)%list []
      = (lines, Some OverflowError)
    /\ Forall2 (line_for c) before lines.
Proof.
  intros Hc Hsizes HN.
  apply (print_comparison_rows_stop hotel_key c before after N _ Hc Hsizes).
  exact (print_comparison_row_overflow hotel_key c N Hc HN).
Qed.

Lemma X12_report_rows_without_zero_witness :
  exists lines,
    print_comparison_rows HotelCostCalculator_init "el_hierro" [30; 40; 50; 90; -4] []
      = (lines, None)
    /\ Forall2 (line_for el_hierro) [30; 40; 50; 90; -4] lines.
Proof.
  apply (X12_report_rows_without_zero "el_hierro" el_hierro [30; 40; 50; 90; -4]).
  - reflexivity.
  - repeat constructor; vm_compute; congruence.
Defined.

Lemma X13_report_stops_at_zero_witness :
  exists lines,
    print_comparison_rows HotelCostCalculator_init "la_palma"
      ([30; 100] ++ 0 :: [40])%list []
      = (lines, Some ZeroDivisionError)
    /\ Forall2 (line_for la_palma) [30; 100] lines.
Proof.
  apply (X13_report_stops_at_zero "la_palma" la_palma [30; 100] [40]).
  - reflexivity.
  - repeat constructor; vm_compute; congruence.
Defined.

Lemma X15_report_stops_at_overflow_witness :
  exists lines,
    print_comparison_rows HotelCostCalculator_init "el_hierro"
      ([30] ++ - 2 ^ 1024 :: [40])%list []
      = (lines, Some OverflowError)
    /\ Forall2 (line_for el_hierro) [30] lines.
Proof.
  apply (X15_report_stops_at_overflow "el_hierro" el_hierro [30] [40] (- 2 ^ 1024)).
  - reflexivity.
  - repeat constructor; vm_compute; congruence.
  - vm_compute. discriminate.
Defined.

(** X7.  At the maximum capacity every room of the hotel is used as a shared
    room, whatever the rates. *)
Theorem X7_full_house_is_all_shared (self : HotelAllocator) :
  inventory_wf (config self) ->
  snd (allocate_rooms self (get_max_capacity (config self)))
  = Ok (alloc (standard_count (inventory (config self))) 0
              (superior_count (inventory (config self))) 0).
Proof.
  intros Hwf. pose proof Hwf as [HS HP].
  destruct (allocate_rooms_post self Hwf (get_max_capacity (config self)))
    as (a & Ha & Hnn & Hinv & Hpeople & _).
  { unfold get_max_capacity. lia. }
  rewrite Ha. cbn [snd]. f_equal.
  destruct a as [x1 x2 x3 x4].
  unfold non_negative, within_inventory, people_housed, get_max_capacity in *.
  cbn [standard_shared standard_single superior_shared superior_single] in *.
  unfold alloc. f_equal; lia.
Qed.

Lemma X7_full_house_is_all_shared_witness :
  snd (allocate_rooms (Build_HotelAllocator la_palma)
         (get_max_capacity la_palma))
  = Ok (alloc 21 0 24 0).
Proof.
  apply (X7_full_house_is_all_shared (Build_HotelAllocator la_palma)).
  unfold inventory_wf. cbn. lia.
Defined.

Definition cost_grows_at (c : HotelConfig) (N : Z) : bool :=
  match snd (allocate_rooms (Build_HotelAllocator c) N),
        snd (allocate_rooms (Build_HotelAllocator c) (N + 1)) with
  | Ok a, Ok a' =>
      negb (Qle_bool (get_total_cost a' (rates c)) (get_total_cost a (rates c)))
  | _, _ => false
  end.

Lemma cost_grows_catalogue (hotel_key : string) (c : HotelConfig) :
  _initialize_hotels !! hotel_key = Some c ->
  forallb (cost_grows_at c) (upto (get_max_capacity c - 1)) = true.
Proof.
  intros Hc. destruct (hotels_inv _ _ Hc) as [[_ ->] | [_ ->]];
    vm_compute; reflexivity.
Qed.

(** X14.  At both hotels of the catalogue the total accommodation cost
    grows strictly with each additional guest, from 0 up to the
    capacity. *)
Theorem X14_one_more_guest_costs_more (hotel_key : string) (c : HotelConfig) (N : Z) :
  _initialize_hotels !! hotel_key = Some c ->
  0 <= N < get_max_capacity c ->
  exists a a',
    snd (allocate_rooms (Build_HotelAllocator c) N) = Ok a
    /\ snd (allocate_rooms (Build_HotelAllocator c) (N + 1)) = Ok a'
    /\ (get_total_cost a (rates c) < get_total_cost a' (rates c))%Q.
Proof.
  intros Hc HN.
  pose proof (forallb_upto _ _ N (cost_grows_catalogue _ _ Hc) ltac:(lia)) as H.
  unfold cost_grows_at in H.
  destruct (snd (allocate_rooms (Build_HotelAllocator c) N)) as [a|]; [|discriminate].
  destruct (snd (allocate_rooms (Build_HotelAllocator c) (N + 1))) as [a'|];
    [|discriminate].
  exists a, a'. split; [reflexivity|]. split; [reflexivity|].
  apply Qnot_le_lt. intros Hle. apply Qle_bool_iff in Hle.
  rewrite Hle in H. discriminate.
Qed.

Lemma X14_one_more_guest_costs_more_witness :
  exists a a',
    snd (allocate_rooms (Build_HotelAllocator el_hierro) 40) = Ok a
    /\ snd (allocate_rooms (Build_HotelAllocator el_hierro) (40 + 1)) = Ok a'
    /\ (get_total_cost a (rates el_hierro) < get_total_cost a' (rates el_hierro))%Q.
Proof.
  apply (X14_one_more_guest_costs_more "el_hierro" el_hierro 40).
  - reflexivity.
  - vm_compute. split; [discriminate | reflexivity].
Defined.
